(** * openvqe.hamiltonian.hamiltonian_base

    A shallow embedding of [ParametersHamiltonian] and [HamiltonianBase]
    (src/openvqe/hamiltonian/hamiltonian_base.py) and the properties the
    specification states about them.

    Python objects are modelled by explicit state passing: a method is a
    function from the instance to a result (a value or a raised exception)
    and the instance afterwards.  [__call__] runs in a small monad that, on
    top of that, records which operations of the instance and of the
    openfermion library were performed, in order. *)

From Stdlib Require Import String Ascii NArith ZArith List.
From stdpp Require Import base decidable option list gmap.

Local Open Scope N_scope.

(** ** Python strings *)

(** A Python [str] is a sequence of Unicode code points. *)
Abbreviation str := (list N).

(** The [str] written by an ASCII literal of the source. *)
Definition py (s : string) : str := N_of_ascii <$> list_ascii_of_string s.
Arguments py s%_string.

(** [str.upper] maps every character through Unicode's full uppercase
    mapping (one character may become several).  On ASCII it turns [a]..[z]
    into [A]..[Z] and keeps the rest; the mapping of the other code points
    is the interpreter's Unicode table, taken as given. *)
Class Unicode := { unicode_upper : N -> str }.

Definition upper_char `{Unicode} (c : N) : str :=
  if c <? 128
  then [if (97 <=? c) && (c <=? 122) then c - 32 else c]
  else unicode_upper c.

Definition upper `{Unicode} (s : str) : str := c ← s; upper_char c.

(** Lowercase of an ASCII letter; used to say that two names differ only in
    the case of their ASCII letters. *)
Definition ascii_lower (c : N) : N :=
  if (65 <=? c) && (c <=? 90) then c + 32 else c.

Definition same_ignoring_ascii_case (t1 t2 : str) : Prop :=
  ascii_lower <$> t1 = ascii_lower <$> t2.

(** ** Classes, exceptions, results *)

(** A class object, as far as the source looks at one: [type(x).__name__]. *)
Record PyType := { __name__ : str }.

(** The exceptions the module raises itself, and those ([E]) raised by the
    code it calls: [verify], overridden methods, openfermion. *)
Inductive exn (E : Type) :=
| OpenVQEParameterError
    (parameter_name : str) (parameter_class : PyType)
    (parameter_value : str) (called_from : str)
| OpenVQEException (msg : str)
| NotImplementedError (msg : str)
| Raised (e : E).
Arguments OpenVQEParameterError {E}.
Arguments OpenVQEException {E}.
Arguments NotImplementedError {E}.
Arguments Raised {E}.

(** The class of an exception: what an [except] clause tells apart. *)
Inductive exn_class :=
| ClsOpenVQEParameterError
| ClsOpenVQEException
| ClsNotImplementedError
| ClsRaised.

Definition class_of_exn {E} (e : exn E) : exn_class :=
  match e with
  | OpenVQEParameterError _ _ _ _ => ClsOpenVQEParameterError
  | OpenVQEException _ => ClsOpenVQEException
  | NotImplementedError _ => ClsNotImplementedError
  | Raised _ => ClsRaised
  end.

Inductive result (E A : Type) :=
| Ok (a : A)
| Err (e : exn E).
Arguments Ok {E A}.
Arguments Err {E A}.

(** A call whose argument is the result of another call: an exception of
    the inner call is the exception of the whole expression. *)
Definition and_then {E A B} (r : result E A) (k : A -> result E B) :
  result E B :=
  match r with
  | Ok a => k a
  | Err e => Err e
  end.

Definition raised_class {E A} (r : result E A) : option exn_class :=
  match r with
  | Ok _ => None
  | Err e => Some (class_of_exn e)
  end.

(** ** openfermion *)

(** The three functions of openfermion the module calls; each returns or
    raises. *)
Module openfermion.

Class API (FermionicHamiltonian FermionOperator QubitOperator E : Type) := {
  get_fermion_operator : FermionicHamiltonian -> result E FermionOperator;
  jordan_wigner : FermionOperator -> result E QubitOperator;
  bravyi_kitaev : FermionOperator -> result E QubitOperator
}.

End openfermion.

(** ** ParametersHamiltonian *)

(** The dataclass has the one field [transformation]; [parameters_type]
    is the object's class, which [__call__] reports in its error
    ([ParametersHamiltonian] or a dataclass derived from it). *)
Record ParametersHamiltonian := {
  parameters_type : PyType;
  transformation : str
}.

Definition ParametersHamiltonian_type : PyType :=
  {| __name__ := py "ParametersHamiltonian" |}.

(** [ParametersHamiltonian()]: the field's default is ["JW"]. *)
Definition ParametersHamiltonian_default : ParametersHamiltonian :=
  {| parameters_type := ParametersHamiltonian_type;
     transformation := py "JW" |}.

Definition jordan_wigner_aliases : list str :=
  [py "JW"; py "J-W"; py "JORDAN-WIGNER"].

Definition bravyi_kitaev_aliases : list str :=
  [py "BK"; py "B-K"; py "BRAVYI-KITAEV"].

Definition jordan_wigner `{Unicode} (self : ParametersHamiltonian) : bool :=
  if decide (upper (transformation self) ∈ jordan_wigner_aliases)
  then true
  else false.

Definition bravyi_kitaev `{Unicode} (self : ParametersHamiltonian) : bool :=
  if decide (upper (transformation self) ∈ bravyi_kitaev_aliases)
  then true
  else false.

(** ** Instances and the call monad *)

(** What [__call__] does to the instance and to the library, in order. *)
Inductive event :=
| EvVerify
| EvGetFermionicHamiltonian
| EvGetattr (name : str)
| EvTransformMethod (name : str)
| EvGetFermionOperator
| EvJordanWigner
| EvBravyiKitaev.

Section Model.

(** openfermion's representations, and what overriding code keeps in the
    instance ([D]), raises ([E]) or stores in non-callable attributes
    ([V]). *)
Context {FermionicHamiltonian QubitOperator : Type}.
Context {D E V : Type}.

(** An instance of a class derived from [HamiltonianBase]: its class,
    [self.parameters], and the rest of its state. *)
Record Self := {
  self_type : PyType;
  parameters : ParametersHamiltonian;
  fields : D
}.

(** A method called on an instance: what it returns or raises, and the
    instance afterwards. *)
Definition method (A : Type) : Type := Self -> result E A * Self.

(** What [getattr(self, name, None)] may find: something callable, called
    with the fermionic Hamiltonian, or a value that is not. *)
Inductive attr :=
| Callable (f : FermionicHamiltonian -> method QubitOperator)
| NotCallable (v : V).

(** [callable(x)], with [None] (the default of [getattr]) for a missing
    attribute. *)
Definition callable (x : option attr) : bool :=
  match x with
  | Some (Callable _) => true
  | _ => false
  end.

(** A class derived from [HamiltonianBase]: the methods [__call__] reaches
    through [self], and the attributes [getattr] sees on an instance. *)
Record HamiltonianClass := {
  verify : method bool;
  get_fermionic_hamiltonian : method FermionicHamiltonian;
  n_qubits : method Z;
  attributes : Self -> gmap str attr
}.

(** The outcome of running [__call__]: result, instance afterwards, and
    the operations performed. *)
Record outcome (A : Type) := Outcome {
  value : result E A;
  final : Self;
  trace : list event
}.

Definition M (A : Type) : Type := Self -> outcome A.

Definition raise {A} (e : exn E) : M A := fun s => Outcome _ (Err e) s [].

Definition bind {A B} (c : M A) (k : A -> M B) : M B :=
  fun s =>
    let o := c s in
    match value _ o with
    | Ok a =>
        let o' := k a (final _ o) in
        Outcome _ (value _ o') (final _ o') (trace _ o ++ trace _ o')
    | Err e => Outcome _ (Err e) (final _ o) (trace _ o)
    end.

(** A method call on [self]. *)
Definition call {A} (ev : event) (m : method A) : M A :=
  fun s => let '(r, s') := m s in Outcome _ r s' [ev].

(** A call into openfermion: it does not see the instance. *)
Definition lib {A} (ev : event) (r : result E A) : M A :=
  fun s => Outcome _ r s [ev].

(** Reading from [self]. *)
Definition read {A} (f : Self -> A) : M A :=
  fun s => Outcome _ (Ok (f s)) s [].

(** [getattr(self, name, None)]: [None] when [self] has no such
    attribute. *)
Definition getattr (cls : HamiltonianClass) (name : str) : M (option attr) :=
  fun s => Outcome _ (Ok (attributes cls s !! name)) s [EvGetattr name].

End Model.

Arguments Self D : clear implicits.
Arguments method D E A : clear implicits.
Arguments attr FermionicHamiltonian QubitOperator D E V : clear implicits.
Arguments HamiltonianClass FermionicHamiltonian QubitOperator D E V :
  clear implicits.
Arguments outcome D E A : clear implicits.
Arguments M D E A : clear implicits.
Arguments Outcome {D E A}.
Arguments value {D E A}.
Arguments final {D E A}.
Arguments trace {D E A}.

Notation "x <- c ;; k" := (bind c (fun x => k))
  (at level 20, c at level 99, k at level 200, only parsing).

(** ** HamiltonianBase *)

Section HamiltonianBase.

Context {FermionicHamiltonian FermionOperator QubitOperator : Type}.
Context {D E V : Type}.
Context `{Unicode}.
Context `{!openfermion.API FermionicHamiltonian FermionOperator QubitOperator E}.

Local Abbreviation Class :=
  (HamiltonianClass FermionicHamiltonian QubitOperator D E V).

(** [HamiltonianBase.__call__], for an instance of the class [cls].  The
    value [verify] returns is dropped. *)
Definition __call__ (cls : Class) : M D E QubitOperator :=
  sane <- call EvVerify (verify cls) ;;
  p <- read parameters ;;
  if jordan_wigner p then
    h <- call EvGetFermionicHamiltonian (get_fermionic_hamiltonian cls) ;;
    fo <- lib EvGetFermionOperator (openfermion.get_fermion_operator h) ;;
    lib EvJordanWigner (openfermion.jordan_wigner fo)
  else if bravyi_kitaev p then
    h <- call EvGetFermionicHamiltonian (get_fermionic_hamiltonian cls) ;;
    fo <- lib EvGetFermionOperator (openfermion.get_fermion_operator h) ;;
    lib EvBravyiKitaev (openfermion.bravyi_kitaev fo)
  else
    transform_method <- getattr cls (transformation p) ;;
    match transform_method with
    | Some (Callable f) =>
        h <- call EvGetFermionicHamiltonian (get_fermionic_hamiltonian cls) ;;
        call (EvTransformMethod (transformation p)) (f h)
    | _ =>
        t <- read self_type ;;
        raise (OpenVQEParameterError
                 (py "transformation") (parameters_type p) (transformation p)
                 (__name__ t ++ py ".__call__()"))
    end.

(** [HamiltonianBase.n_qubits]. *)
Definition HamiltonianBase_n_qubits : method D E Z :=
  fun self =>
    (Err (OpenVQEException
            (__name__ (self_type self) ++
             py ": forgot to overwrite n_qubits() function or you are calling the BaseClass which you shall not do")),
     self).

(** [HamiltonianBase.get_fermionic_hamiltonian]. *)
Definition HamiltonianBase_get_fermionic_hamiltonian :
  method D E FermionicHamiltonian :=
  fun self =>
    (Err (NotImplementedError
            (py "You try to call get_hamiltonian from the HamiltonianBase class. This function needs to be overwritten by subclasses")),
     self).

(** [HamiltonianBase.verify] returns [self._verify()]; [_verify] is
    inherited from [OpenVQEModule] (openvqe.abc). *)
Definition HamiltonianBase_verify (_verify : method D E bool) :
  method D E bool :=
  fun self => _verify self.

(** [HamiltonianBase] itself, nothing overridden; [attrs] is what
    [getattr] finds on its instances. *)
Definition HamiltonianBase (_verify : method D E bool)
    (attrs : Self D -> gmap str (attr FermionicHamiltonian QubitOperator D E V)) :
  Class :=
  {| verify := HamiltonianBase_verify _verify;
     get_fermionic_hamiltonian := HamiltonianBase_get_fermionic_hamiltonian;
     n_qubits := HamiltonianBase_n_qubits;
     attributes := attrs |}.

(** The order of steps as the specification words it (validate, obtain
    the fermionic Hamiltonian, then dispatch on the name), to compare
    [__call__] with. *)
Definition call_in_spec_order (cls : Class) : M D E QubitOperator :=
  sane <- call EvVerify (verify cls) ;;
  h <- call EvGetFermionicHamiltonian (get_fermionic_hamiltonian cls) ;;
  p <- read parameters ;;
  if jordan_wigner p then
    fo <- lib EvGetFermionOperator (openfermion.get_fermion_operator h) ;;
    lib EvJordanWigner (openfermion.jordan_wigner fo)
  else if bravyi_kitaev p then
    fo <- lib EvGetFermionOperator (openfermion.get_fermion_operator h) ;;
    lib EvBravyiKitaev (openfermion.bravyi_kitaev fo)
  else
    transform_method <- getattr cls (transformation p) ;;
    match transform_method with
    | Some (Callable f) => call (EvTransformMethod (transformation p)) (f h)
    | _ =>
        t <- read self_type ;;
        raise (OpenVQEParameterError
                 (py "transformation") (parameters_type p) (transformation p)
                 (__name__ t ++ py ".__call__()"))
    end.

(** Two consecutive calls: both results, and the instance at the end. *)
Definition call_twice (cls : Class) (s : Self D) :
  result E QubitOperator * result E QubitOperator * Self D :=
  let o1 := __call__ cls s in
  let o2 := __call__ cls (final o1) in
  (value o1, value o2, final o2).

(** The overridable code of [cls] leaves the instance as it found it. *)
Definition read_only (cls : Class) : Prop :=
  (forall s, (verify cls s).2 = s) /\
  (forall s, (get_fermionic_hamiltonian cls s).2 = s) /\
  (forall s name f h s',
      attributes cls s !! name = Some (Callable f) -> (f h s').2 = s').

(** The methods that [__call__] invokes on the instance [s] leave it as it
    is: [verify]; then, if [verify] returned and the name selects a
    transform, [get_fermionic_hamiltonian]; then, if the name is that of a
    callable attribute and no built-in alias, that attribute called with
    the Hamiltonian.  Nothing is asked of methods the call does not
    reach, nor of other instances. *)
Definition unchanged_by_methods (cls : Class) (s : Self D) : Prop :=
  (verify cls s).2 = s /\
  (forall b,
      (verify cls s).1 = Ok b ->
      (jordan_wigner (parameters s) || bravyi_kitaev (parameters s)
       || callable (attributes cls s !! transformation (parameters s)) = true ->
       (get_fermionic_hamiltonian cls s).2 = s) /\
      (forall f h,
          jordan_wigner (parameters s) = false ->
          bravyi_kitaev (parameters s) = false ->
          attributes cls s !! transformation (parameters s) = Some (Callable f) ->
          (get_fermionic_hamiltonian cls s).1 = Ok h ->
          (f h s).2 = s)).

End HamiltonianBase.

(** ** A small concrete setting

    Numbers stand in for openfermion's operators, so that [__call__] can
    be run; [Molecule] is a class derived from [HamiltonianBase]. *)

Module Example.

(** A fragment of the uppercase table: dotless i and long s. *)
#[export] Instance unicode : Unicode :=
  {| unicode_upper c :=
       if c =? 305 then [73] else if c =? 383 then [83] else [c] |}.

#[export] Instance api : openfermion.API N N N unit :=
  {| openfermion.get_fermion_operator h := Ok (h + 1);
     openfermion.jordan_wigner fo := Ok (2 * fo);
     openfermion.bravyi_kitaev fo := Ok (2 * fo + 1) |}.

Definition _verify : method unit unit bool := fun self => (Ok true, self).

Definition custom_transform (h : N) : method unit unit N :=
  fun self => (Ok (h + 100), self).

(** [class Molecule(HamiltonianBase)]: overrides the two abstract methods,
    defines [custom_transform(H)] and a method called [jw], and has the
    non-callable attributes [basis] and [bk]. *)
Definition Molecule : HamiltonianClass N N unit unit N :=
  {| verify := HamiltonianBase_verify _verify;
     get_fermionic_hamiltonian := fun self => (Ok 7, self);
     n_qubits := fun self => (Ok 4%Z, self);
     attributes := fun _ =>
       {[ py "custom_transform" := Callable custom_transform;
          py "jw" := Callable custom_transform;
          py "basis" := NotCallable 0;
          py "bk" := NotCallable 1 ]} |}.

(** [HamiltonianBase] with nothing overridden; the attributes it inherits
    are left out, none of them is called [foo]. *)
Definition Base : HamiltonianClass N N unit unit N :=
  HamiltonianBase _verify (fun _ => ∅).

(** A class whose [verify] finds the instance inconsistent. *)
Definition Inconsistent : HamiltonianClass N N unit unit N :=
  {| verify := fun self => (Err (Raised tt), self);
     get_fermionic_hamiltonian := fun self => (Ok 7, self);
     n_qubits := fun self => (Ok 4%Z, self);
     attributes := fun _ => ∅ |}.

(** An instance whose class is called [name], configured with the
    transformation [t]. *)
Definition instance (name : string) (t : str) : Self unit :=
  {| self_type := {| __name__ := py name |};
     parameters :=
       {| parameters_type := ParametersHamiltonian_type; transformation := t |};
     fields := tt |}.

End Example.

(** A class whose instances carry a number, with a method [set_basis] that
    overwrites it; [__call__] never calls it unless the transformation is
    configured to be ["set_basis"]. *)
Module SetterExample.

Definition set_basis (h : N) : method N unit N :=
  fun self =>
    (Ok h,
     {| self_type := self_type self;
        parameters := parameters self;
        fields := h |}).

Definition WithSetter : HamiltonianClass N N N unit N :=
  {| verify := fun self => (Ok true, self);
     get_fermionic_hamiltonian := fun self => (Ok 7, self);
     n_qubits := fun self => (Ok 4%Z, self);
     attributes := fun _ => {[ py "set_basis" := Callable set_basis ]} |}.

Definition instance (t : str) : Self N :=
  {| self_type := {| __name__ := py "WithSetter" |};
     parameters :=
       {| parameters_type := ParametersHamiltonian_type; transformation := t |};
     fields := 0 |}.

End SetterExample.

(** ** Properties *)

Section Properties.

Context {FermionicHamiltonian FermionOperator QubitOperator : Type}.
Context {D E V : Type}.
Context `{Unicode}.
Context `{!openfermion.API FermionicHamiltonian FermionOperator QubitOperator E}.

Local Abbreviation Class :=
  (HamiltonianClass FermionicHamiltonian QubitOperator D E V).

(** *** The two predicates *)

Lemma jordan_wigner_true (p : ParametersHamiltonian) :
  jordan_wigner p = true <-> upper (transformation p) ∈ jordan_wigner_aliases.
Proof. unfold jordan_wigner. case_decide; intuition congruence. Qed.

Lemma bravyi_kitaev_true (p : ParametersHamiltonian) :
  bravyi_kitaev p = true <-> upper (transformation p) ∈ bravyi_kitaev_aliases.
Proof. unfold bravyi_kitaev. case_decide; intuition congruence. Qed.

Lemma aliases_disjoint (x : str) :
  x ∈ jordan_wigner_aliases -> x ∈ bravyi_kitaev_aliases -> False.
Proof.
  unfold jordan_wigner_aliases, bravyi_kitaev_aliases.
  rewrite !elem_of_cons, !elem_of_nil.
  intros [-> | [-> | [-> | []]]] [Heq | [Heq | [Heq | []]]]; discriminate Heq.
Qed.

Lemma bravyi_kitaev_not_jordan_wigner (p : ParametersHamiltonian) :
  bravyi_kitaev p = true -> jordan_wigner p = false.
Proof.
  intros Hbk. destruct (jordan_wigner p) eqn:Hjw; [exfalso | reflexivity].
  apply jordan_wigner_true in Hjw. apply bravyi_kitaev_true in Hbk.
  exact (aliases_disjoint _ Hjw Hbk).
Qed.

(** [upper] does not see the case of ASCII letters. *)
Lemma upper_char_ascii_lower (c : N) : upper_char (ascii_lower c) = upper_char c.
Proof.
  unfold upper_char, ascii_lower.
  destruct (N.leb_spec 65 c), (N.leb_spec c 90); simpl; try reflexivity.
  destruct (N.ltb_spec (c + 32) 128), (N.ltb_spec c 128); try lia.
  destruct (N.leb_spec 97 (c + 32)), (N.leb_spec (c + 32) 122); try lia.
  destruct (N.leb_spec 97 c), (N.leb_spec c 122); try lia.
  simpl. f_equal. lia.
Qed.

Lemma upper_ascii_lower (t : str) : upper (ascii_lower <$> t) = upper t.
Proof.
  unfold upper. induction t as [| c t IH]; [reflexivity |].
  rewrite fmap_cons, !bind_cons, IH, upper_char_ascii_lower. reflexivity.
Qed.

Lemma upper_ignores_ascii_case (t1 t2 : str) :
  same_ignoring_ascii_case t1 t2 -> upper t1 = upper t2.
Proof.
  unfold same_ignoring_ascii_case. intros Heq.
  rewrite <- (upper_ascii_lower t1), <- (upper_ascii_lower t2), Heq.
  reflexivity.
Qed.

(** *** How a call runs, branch by branch *)

Ltac step := unfold __call__, bind, call, lib, read, getattr, raise; simpl.

Lemma run_verify_raises (cls : Class) (s s1 : Self D) (e : exn E) :
  verify cls s = (Err e, s1) ->
  __call__ cls s = Outcome (Err e) s1 [EvVerify].
Proof. intros Hv. step. rewrite Hv. reflexivity. Qed.

Lemma run_builtin_raises (cls : Class) (s s1 s2 : Self D) (b : bool) (e : exn E) :
  verify cls s = (Ok b, s1) ->
  jordan_wigner (parameters s1) || bravyi_kitaev (parameters s1) = true ->
  get_fermionic_hamiltonian cls s1 = (Err e, s2) ->
  __call__ cls s = Outcome (Err e) s2 [EvVerify; EvGetFermionicHamiltonian].
Proof.
  intros Hv Hb Hh. step. rewrite Hv. simpl.
  destruct (jordan_wigner (parameters s1)); simpl in *.
  - rewrite Hh. reflexivity.
  - rewrite Hb. simpl. rewrite Hh. reflexivity.
Qed.

Lemma run_jordan_wigner (cls : Class) (s s1 s2 : Self D) (b : bool)
    (h : FermionicHamiltonian) :
  verify cls s = (Ok b, s1) ->
  jordan_wigner (parameters s1) = true ->
  get_fermionic_hamiltonian cls s1 = (Ok h, s2) ->
  __call__ cls s =
  Outcome
    (and_then (openfermion.get_fermion_operator h) openfermion.jordan_wigner)
    s2
    (EvVerify :: EvGetFermionicHamiltonian :: EvGetFermionOperator ::
       match openfermion.get_fermion_operator h with
       | Ok _ => [EvJordanWigner]
       | Err _ => []
       end).
Proof.
  intros Hv Hjw Hh. step. rewrite Hv. simpl. rewrite Hjw. simpl.
  rewrite Hh. simpl.
  destruct (openfermion.get_fermion_operator h); reflexivity.
Qed.

Lemma run_bravyi_kitaev (cls : Class) (s s1 s2 : Self D) (b : bool)
    (h : FermionicHamiltonian) :
  verify cls s = (Ok b, s1) ->
  bravyi_kitaev (parameters s1) = true ->
  get_fermionic_hamiltonian cls s1 = (Ok h, s2) ->
  __call__ cls s =
  Outcome
    (and_then (openfermion.get_fermion_operator h) openfermion.bravyi_kitaev)
    s2
    (EvVerify :: EvGetFermionicHamiltonian :: EvGetFermionOperator ::
       match openfermion.get_fermion_operator h with
       | Ok _ => [EvBravyiKitaev]
       | Err _ => []
       end).
Proof.
  intros Hv Hbk Hh. step. rewrite Hv. simpl.
  rewrite (bravyi_kitaev_not_jordan_wigner _ Hbk), Hbk. simpl.
  rewrite Hh. simpl.
  destruct (openfermion.get_fermion_operator h); reflexivity.
Qed.

Lemma run_custom (cls : Class) (s s1 s2 : Self D) (b : bool)
    (f : FermionicHamiltonian -> method D E QubitOperator)
    (h : FermionicHamiltonian) :
  verify cls s = (Ok b, s1) ->
  jordan_wigner (parameters s1) = false ->
  bravyi_kitaev (parameters s1) = false ->
  attributes cls s1 !! transformation (parameters s1) = Some (Callable f) ->
  get_fermionic_hamiltonian cls s1 = (Ok h, s2) ->
  __call__ cls s =
  Outcome (f h s2).1 (f h s2).2
    [EvVerify; EvGetattr (transformation (parameters s1));
     EvGetFermionicHamiltonian;
     EvTransformMethod (transformation (parameters s1))].
Proof.
  intros Hv Hjw Hbk Hf Hh. step. rewrite Hv. simpl. rewrite Hjw, Hbk. simpl.
  rewrite Hf. simpl. rewrite Hh. simpl.
  destruct (f h s2); reflexivity.
Qed.

Lemma run_custom_raises (cls : Class) (s s1 s2 : Self D) (b : bool)
    (f : FermionicHamiltonian -> method D E QubitOperator) (e : exn E) :
  verify cls s = (Ok b, s1) ->
  jordan_wigner (parameters s1) = false ->
  bravyi_kitaev (parameters s1) = false ->
  attributes cls s1 !! transformation (parameters s1) = Some (Callable f) ->
  get_fermionic_hamiltonian cls s1 = (Err e, s2) ->
  __call__ cls s =
  Outcome (Err e) s2
    [EvVerify; EvGetattr (transformation (parameters s1));
     EvGetFermionicHamiltonian].
Proof.
  intros Hv Hjw Hbk Hf Hh. step. rewrite Hv. simpl. rewrite Hjw, Hbk. simpl.
  rewrite Hf. simpl. rewrite Hh. reflexivity.
Qed.

Lemma run_unknown (cls : Class) (s s1 : Self D) (b : bool) :
  verify cls s = (Ok b, s1) ->
  jordan_wigner (parameters s1) = false ->
  bravyi_kitaev (parameters s1) = false ->
  callable (attributes cls s1 !! transformation (parameters s1)) = false ->
  __call__ cls s =
  Outcome
    (Err (OpenVQEParameterError
            (py "transformation")
            (parameters_type (parameters s1))
            (transformation (parameters s1))
            (__name__ (self_type s1) ++ py ".__call__()")))
    s1
    [EvVerify; EvGetattr (transformation (parameters s1))].
Proof.
  intros Hv Hjw Hbk Hc. step. rewrite Hv. simpl. rewrite Hjw, Hbk. simpl.
  destruct (attributes cls s1 !! transformation (parameters s1))
    as [[f | v] |]; [discriminate Hc | reflexivity | reflexivity].
Qed.

(** A call writes nothing of its own: when the methods it invokes leave
    the instance as it is, so does the call. *)
Lemma call_frame (cls : Class) (s : Self D) :
  unchanged_by_methods cls s -> final (__call__ cls s) = s.
Proof.
  intros (Hver & Hrest).
  destruct (verify cls s) as [[b | e] s1] eqn:Hv; simpl in Hver; subst s1.
  2: { rewrite (run_verify_raises _ _ _ _ Hv). reflexivity. }
  destruct (Hrest b eq_refl) as [Hget Hattr].
  destruct (get_fermionic_hamiltonian cls s) as [[h | e] s2] eqn:Hh;
    simpl in Hget, Hattr.
  - destruct (jordan_wigner (parameters s)) eqn:Hjw.
    { rewrite (run_jordan_wigner _ _ _ _ _ _ Hv Hjw Hh). simpl.
      apply Hget. reflexivity. }
    destruct (bravyi_kitaev (parameters s)) eqn:Hbk.
    { rewrite (run_bravyi_kitaev _ _ _ _ _ _ Hv Hbk Hh). simpl.
      apply Hget. reflexivity. }
    destruct (attributes cls s !! transformation (parameters s))
      as [[f | v] |] eqn:Hf.
    + rewrite (run_custom _ _ _ _ _ _ _ Hv Hjw Hbk Hf Hh). simpl.
      rewrite (Hget eq_refl). exact (Hattr f h eq_refl eq_refl eq_refl eq_refl).
    + rewrite (run_unknown _ _ _ _ Hv Hjw Hbk); [reflexivity |].
      rewrite Hf. reflexivity.
    + rewrite (run_unknown _ _ _ _ Hv Hjw Hbk); [reflexivity |].
      rewrite Hf. reflexivity.
  - destruct (jordan_wigner (parameters s) || bravyi_kitaev (parameters s))
      eqn:Hb.
    { rewrite (run_builtin_raises _ _ _ _ _ _ Hv Hb Hh). simpl.
      apply Hget. reflexivity. }
    apply orb_false_elim in Hb as [Hjw Hbk].
    destruct (attributes cls s !! transformation (parameters s))
      as [[f | v] |] eqn:Hf.
    + rewrite (run_custom_raises _ _ _ _ _ _ _ Hv Hjw Hbk Hf Hh). simpl.
      apply Hget. reflexivity.
    + rewrite (run_unknown _ _ _ _ Hv Hjw Hbk); [reflexivity |].
      rewrite Hf. reflexivity.
    + rewrite (run_unknown _ _ _ _ Hv Hjw Hbk); [reflexivity |].
      rewrite Hf. reflexivity.
Qed.

(** A class all of whose methods are read-only satisfies this on every
    instance. *)
Lemma read_only_unchanged (cls : Class) (s : Self D) :
  read_only cls -> unchanged_by_methods cls s.
Proof.
  intros (Hver & Hget & Hattr). split; [apply Hver |].
  intros b _. split; [intros _; apply Hget |].
  intros f h _ _ Hf _. exact (Hattr _ _ _ _ _ Hf).
Qed.

(** *** The claims *)

(** C1.  For a class whose [get_fermionic_hamiltonian] provides [h], an
    instance that passes [verify] and is configured with ["JW"] (or any
    other Jordan-Wigner alias), [__call__] returns exactly openfermion's
    [jordan_wigner(get_fermion_operator(h))]; with a Bravyi-Kitaev alias it
    returns exactly [bravyi_kitaev(get_fermion_operator(h))]. *)
Theorem call_delegates_to_openfermion
    (cls : Class) (s s1 s2 : Self D) (b : bool) (h : FermionicHamiltonian) :
  verify cls s = (Ok b, s1) ->
  get_fermionic_hamiltonian cls s1 = (Ok h, s2) ->
  (transformation (parameters s1) = py "JW" ->
   value (__call__ cls s) =
   and_then (openfermion.get_fermion_operator h) openfermion.jordan_wigner) /\
  (jordan_wigner (parameters s1) = true ->
   value (__call__ cls s) =
   and_then (openfermion.get_fermion_operator h) openfermion.jordan_wigner) /\
  (bravyi_kitaev (parameters s1) = true ->
   value (__call__ cls s) =
   and_then (openfermion.get_fermion_operator h) openfermion.bravyi_kitaev).
Proof.
  intros Hv Hh.
  assert (Hjw : jordan_wigner (parameters s1) = true ->
                value (__call__ cls s) =
                and_then (openfermion.get_fermion_operator h)
                  openfermion.jordan_wigner).
  { intros Hjw. rewrite (run_jordan_wigner _ _ _ _ _ _ Hv Hjw Hh). reflexivity. }
  split; [| split].
  - intros Ht. apply Hjw. unfold jordan_wigner. rewrite Ht. reflexivity.
  - exact Hjw.
  - intros Hbk. rewrite (run_bravyi_kitaev _ _ _ _ _ _ Hv Hbk Hh). reflexivity.
Qed.

(** C2, as amended.  On an instance whose [verify] returns, a
    transformation name that is neither a Jordan-Wigner alias nor a
    Bravyi-Kitaev alias nor the name of a callable attribute makes
    [__call__] raise [OpenVQEParameterError] carrying the parameter name
    ["transformation"], the class of the parameters, the offending name,
    and the caller [type(self).__name__ + ".__call__()"]. *)
Theorem call_unknown_transformation_raises
    (cls : Class) (s s1 : Self D) (b : bool) :
  verify cls s = (Ok b, s1) ->
  jordan_wigner (parameters s1) = false ->
  bravyi_kitaev (parameters s1) = false ->
  callable (attributes cls s1 !! transformation (parameters s1)) = false ->
  value (__call__ cls s) =
  Err (OpenVQEParameterError
         (py "transformation")
         (parameters_type (parameters s1))
         (transformation (parameters s1))
         (__name__ (self_type s1) ++ py ".__call__()")).
Proof.
  intros Hv Hjw Hbk Hc. rewrite (run_unknown _ _ _ _ Hv Hjw Hbk Hc). reflexivity.
Qed.

(** C3.  [jordan_wigner()] is true for ["JW"], ["jw"], ["J-W"] and
    ["Jordan-Wigner"], [bravyi_kitaev()] for ["BK"], ["bk"], ["B-K"] and
    ["Bravyi-Kitaev"]; in general each is true exactly when the uppercased
    name is one of its three aliases. *)
Theorem predicates_recognize_aliases :
  Forall (fun t => forall ty,
            jordan_wigner {| parameters_type := ty; transformation := t |} = true)
    [py "JW"; py "jw"; py "J-W"; py "Jordan-Wigner"] /\
  Forall (fun t => forall ty,
            bravyi_kitaev {| parameters_type := ty; transformation := t |} = true)
    [py "BK"; py "bk"; py "B-K"; py "Bravyi-Kitaev"] /\
  (forall p : ParametersHamiltonian,
      jordan_wigner p = true <->
      upper (transformation p) = py "JW" \/
      upper (transformation p) = py "J-W" \/
      upper (transformation p) = py "JORDAN-WIGNER") /\
  (forall p : ParametersHamiltonian,
      bravyi_kitaev p = true <->
      upper (transformation p) = py "BK" \/
      upper (transformation p) = py "B-K" \/
      upper (transformation p) = py "BRAVYI-KITAEV").
Proof.
  split; [| split; [| split]].
  - repeat constructor; reflexivity.
  - repeat constructor; reflexivity.
  - intros p. rewrite jordan_wigner_true. unfold jordan_wigner_aliases.
    rewrite !elem_of_cons, elem_of_nil. tauto.
  - intros p. rewrite bravyi_kitaev_true. unfold bravyi_kitaev_aliases.
    rewrite !elem_of_cons, elem_of_nil. tauto.
Qed.

(** C4, as amended.  On [HamiltonianBase] with nothing overridden both
    abstract methods always raise and leave the instance alone, but not
    the same class of error: [n_qubits()] raises [OpenVQEException] with a
    message that starts with the name of the instance's class,
    [get_fermionic_hamiltonian()] raises [NotImplementedError]. *)
Theorem base_abstract_methods_raise
    (_verify : method D E bool)
    (attrs : Self D -> gmap str (attr FermionicHamiltonian QubitOperator D E V))
    (self : Self D) :
  n_qubits (HamiltonianBase _verify attrs) self =
  (Err (OpenVQEException
          (__name__ (self_type self) ++
           py ": forgot to overwrite n_qubits() function or you are calling the BaseClass which you shall not do")),
   self) /\
  get_fermionic_hamiltonian (HamiltonianBase _verify attrs) self =
  (Err (NotImplementedError
          (py "You try to call get_hamiltonian from the HamiltonianBase class. This function needs to be overwritten by subclasses")),
   self) /\
  raised_class (n_qubits (HamiltonianBase _verify attrs) self).1 =
  Some ClsOpenVQEException /\
  raised_class (get_fermionic_hamiltonian (HamiltonianBase _verify attrs) self).1 =
  Some ClsNotImplementedError.
Proof. repeat split. Qed.

(** C5, as amended.  On an instance that passes [verify] and whose
    transformation name is not a Jordan-Wigner or Bravyi-Kitaev alias, if
    the name is that of a callable attribute [f] and
    [get_fermionic_hamiltonian] provides [h], then [__call__] returns
    exactly what [f(h)] returns (or raises what it raises), and leaves the
    instance as [f] left it. *)
Theorem call_custom_transformation
    (cls : Class) (s s1 s2 : Self D) (b : bool)
    (f : FermionicHamiltonian -> method D E QubitOperator)
    (h : FermionicHamiltonian) :
  verify cls s = (Ok b, s1) ->
  jordan_wigner (parameters s1) = false ->
  bravyi_kitaev (parameters s1) = false ->
  attributes cls s1 !! transformation (parameters s1) = Some (Callable f) ->
  get_fermionic_hamiltonian cls s1 = (Ok h, s2) ->
  value (__call__ cls s) = (f h s2).1 /\
  final (__call__ cls s) = (f h s2).2.
Proof.
  intros Hv Hjw Hbk Hf Hh.
  rewrite (run_custom _ _ _ _ _ _ _ Hv Hjw Hbk Hf Hh). split; reflexivity.
Qed.

(** C6, as amended.  Every call starts with [verify], and when [verify]
    raises nothing else happens.  Otherwise the name is dispatched on
    first and the fermionic Hamiltonian is obtained inside the branch
    taken: right away for a Jordan-Wigner or Bravyi-Kitaev alias, after
    the attribute lookup for a callable attribute, and not at all when the
    parameter error is raised. *)
Theorem call_step_order (cls : Class) (s : Self D) :
  (exists rest, trace (__call__ cls s) = EvVerify :: rest) /\
  (forall e s1,
      verify cls s = (Err e, s1) ->
      __call__ cls s = Outcome (Err e) s1 [EvVerify]) /\
  (forall b s1,
      verify cls s = (Ok b, s1) ->
      let p := parameters s1 in
      if jordan_wigner p || bravyi_kitaev p then
        exists rest,
          trace (__call__ cls s) =
          EvVerify :: EvGetFermionicHamiltonian :: rest
      else if callable (attributes cls s1 !! transformation p) then
        exists rest,
          trace (__call__ cls s) =
          EvVerify :: EvGetattr (transformation p) ::
            EvGetFermionicHamiltonian :: rest
      else
        trace (__call__ cls s) = [EvVerify; EvGetattr (transformation p)]).
Proof.
  assert (Hok : forall b s1,
      verify cls s = (Ok b, s1) ->
      let p := parameters s1 in
      if jordan_wigner p || bravyi_kitaev p then
        exists rest,
          trace (__call__ cls s) =
          EvVerify :: EvGetFermionicHamiltonian :: rest
      else if callable (attributes cls s1 !! transformation p) then
        exists rest,
          trace (__call__ cls s) =
          EvVerify :: EvGetattr (transformation p) ::
            EvGetFermionicHamiltonian :: rest
      else
        trace (__call__ cls s) = [EvVerify; EvGetattr (transformation p)]).
  { intros b s1 Hv p. subst p.
    destruct (get_fermionic_hamiltonian cls s1) as [[h | e] s2] eqn:Hh.
    - destruct (jordan_wigner (parameters s1)) eqn:Hjw; simpl.
      { rewrite (run_jordan_wigner _ _ _ _ _ _ Hv Hjw Hh). eauto. }
      destruct (bravyi_kitaev (parameters s1)) eqn:Hbk.
      { rewrite (run_bravyi_kitaev _ _ _ _ _ _ Hv Hbk Hh). eauto. }
      destruct (callable _) eqn:Hc.
      + destruct (attributes cls s1 !! transformation (parameters s1))
          as [[f | v] |] eqn:Hf; try discriminate Hc.
        rewrite (run_custom _ _ _ _ _ _ _ Hv Hjw Hbk Hf Hh). eauto.
      + rewrite (run_unknown _ _ _ _ Hv Hjw Hbk Hc). reflexivity.
    - destruct (jordan_wigner (parameters s1) || bravyi_kitaev (parameters s1))
        eqn:Hb.
      { rewrite (run_builtin_raises _ _ _ _ _ _ Hv Hb Hh). eauto. }
      apply orb_false_elim in Hb as [Hjw Hbk].
      destruct (callable _) eqn:Hc.
      + destruct (attributes cls s1 !! transformation (parameters s1))
          as [[f | v] |] eqn:Hf; try discriminate Hc.
        rewrite (run_custom_raises _ _ _ _ _ _ _ Hv Hjw Hbk Hf Hh). eauto.
      + rewrite (run_unknown _ _ _ _ Hv Hjw Hbk Hc). reflexivity. }
  split; [| split].
  - destruct (verify cls s) as [[b | e] s1] eqn:Hv.
    + specialize (Hok b s1 eq_refl). simpl in Hok.
      destruct (_ || _); [destruct Hok as [rest ->]; eauto |].
      destruct (callable _); [destruct Hok as [rest ->]; eauto |].
      rewrite Hok. eauto.
    + rewrite (run_verify_raises _ _ _ _ Hv). eauto.
  - intros e s1 Hv. exact (run_verify_raises _ _ _ _ Hv).
  - exact Hok.
Qed.

(** C7.  [__call__] writes nothing to the instance and keeps nothing
    between calls: when the methods it invokes on this instance leave the
    configuration and the rest of the instance unchanged, so does
    [__call__], and a second call right after the first performs the same
    operations again and returns an equal result.  Nothing is assumed of
    methods the call does not reach. *)
Theorem consecutive_calls_equal (cls : Class) (s : Self D) :
  unchanged_by_methods cls s ->
  final (__call__ cls s) = s /\
  call_twice cls s = (value (__call__ cls s), value (__call__ cls s), s) /\
  trace (__call__ cls (final (__call__ cls s))) = trace (__call__ cls s).
Proof.
  intros Hun. pose proof (call_frame cls s Hun) as Hs.
  unfold call_twice. rewrite !Hs. auto.
Qed.

(** C8.  Name matching is asymmetric.  Built-in side: on an instance that
    passes [verify] and whose accessor provides [h], every spelling of
    ["JW"], ["J-W"] or ["JORDAN-WIGNER"] in any mix of upper and lower case
    makes [__call__] apply openfermion's Jordan-Wigner transform to [h],
    and every such spelling of ["BK"], ["B-K"] or ["BRAVYI-KITAEV"] the
    Bravyi-Kitaev transform, without any attribute lookup.  Custom side:
    the configured name is looked up as it is: with a name that is no
    built-in alias, a callable attribute stored under [k] (and no other
    attribute under the configured name) is selected exactly when the
    configured name equals [k]; any other name, also one that differs from
    [k] only in case, raises the parameter error. *)
Theorem dispatch_name_matching_asymmetric :
  (forall (cls : Class) (s s1 s2 : Self D) (b : bool)
          (h : FermionicHamiltonian) (alias : str),
      verify cls s = (Ok b, s1) ->
      get_fermionic_hamiltonian cls s1 = (Ok h, s2) ->
      same_ignoring_ascii_case (transformation (parameters s1)) alias ->
      (alias = py "JW" \/ alias = py "J-W" \/ alias = py "JORDAN-WIGNER" ->
       __call__ cls s =
       Outcome
         (and_then (openfermion.get_fermion_operator h) openfermion.jordan_wigner)
         s2
         (EvVerify :: EvGetFermionicHamiltonian :: EvGetFermionOperator ::
            match openfermion.get_fermion_operator h with
            | Ok _ => [EvJordanWigner]
            | Err _ => []
            end)) /\
      (alias = py "BK" \/ alias = py "B-K" \/ alias = py "BRAVYI-KITAEV" ->
       __call__ cls s =
       Outcome
         (and_then (openfermion.get_fermion_operator h) openfermion.bravyi_kitaev)
         s2
         (EvVerify :: EvGetFermionicHamiltonian :: EvGetFermionOperator ::
            match openfermion.get_fermion_operator h with
            | Ok _ => [EvBravyiKitaev]
            | Err _ => []
            end))) /\
  (forall (cls : Class) (s s1 : Self D) (b : bool) (k : str)
          (f : FermionicHamiltonian -> method D E QubitOperator)
          (m : gmap str (attr FermionicHamiltonian QubitOperator D E V)),
      verify cls s = (Ok b, s1) ->
      jordan_wigner (parameters s1) = false ->
      bravyi_kitaev (parameters s1) = false ->
      attributes cls s1 = <[k := Callable f]> m ->
      m !! transformation (parameters s1) = None ->
      (EvGetFermionicHamiltonian ∈ trace (__call__ cls s) <->
       transformation (parameters s1) = k) /\
      (transformation (parameters s1) <> k ->
       value (__call__ cls s) =
       Err (OpenVQEParameterError
              (py "transformation")
              (parameters_type (parameters s1))
              (transformation (parameters s1))
              (__name__ (self_type s1) ++ py ".__call__()")))).
Proof.
  split.
  - intros cls s s1 s2 b h alias Hv Hh Hsame.
    apply upper_ignores_ascii_case in Hsame. split; intros Halias.
    + apply (run_jordan_wigner _ _ _ _ _ _ Hv); [| exact Hh].
      apply jordan_wigner_true. rewrite Hsame.
      unfold jordan_wigner_aliases. rewrite !elem_of_cons.
      destruct Halias as [-> | [-> | ->]]; auto.
    + apply (run_bravyi_kitaev _ _ _ _ _ _ Hv); [| exact Hh].
      apply bravyi_kitaev_true. rewrite Hsame.
      unfold bravyi_kitaev_aliases. rewrite !elem_of_cons.
      destruct Halias as [-> | [-> | ->]]; auto.
  - intros cls s s1 b k f m Hv Hjw Hbk Hattrs Hm.
    assert (Hne : transformation (parameters s1) <> k ->
                  __call__ cls s =
                  Outcome
                    (Err (OpenVQEParameterError
                            (py "transformation")
                            (parameters_type (parameters s1))
                            (transformation (parameters s1))
                            (__name__ (self_type s1) ++ py ".__call__()")))
                    s1 [EvVerify; EvGetattr (transformation (parameters s1))]).
    { intros Hne. apply (run_unknown _ _ _ _ Hv Hjw Hbk).
      rewrite Hattrs, lookup_insert_ne, Hm by congruence. reflexivity. }
    split; [split |].
    + intros Hin.
      destruct (decide (transformation (parameters s1) = k)) as [| Hk];
        [assumption | exfalso].
      rewrite (Hne Hk) in Hin. simpl in Hin.
      rewrite !elem_of_cons, elem_of_nil in Hin.
      destruct Hin as [Heq | [Heq | []]]; discriminate Heq.
    + intros Hk.
      assert (Hf : attributes cls s1 !! transformation (parameters s1) =
                   Some (Callable f)).
      { rewrite Hattrs, Hk. apply lookup_insert_eq. }
      destruct (get_fermionic_hamiltonian cls s1) as [[h | e] s2] eqn:Hh.
      * rewrite (run_custom _ _ _ _ _ _ _ Hv Hjw Hbk Hf Hh). simpl.
        rewrite !elem_of_cons. auto.
      * rewrite (run_custom_raises _ _ _ _ _ _ _ Hv Hjw Hbk Hf Hh). simpl.
        rewrite !elem_of_cons. auto.
    + intros Hk. rewrite (Hne Hk). reflexivity.
Qed.

(** C9.  No transformation name satisfies both predicates: the alias lists
    share no element, so at most one built-in branch applies. *)
Theorem builtin_predicates_exclusive (p : ParametersHamiltonian) :
  jordan_wigner p && bravyi_kitaev p = false.
Proof.
  destruct (bravyi_kitaev p) eqn:Hbk.
  - rewrite (bravyi_kitaev_not_jordan_wigner _ Hbk). reflexivity.
  - apply andb_false_r.
Qed.

(** C10, as amended.  On an instance that passes [verify] and whose
    transformation name is not a Jordan-Wigner or Bravyi-Kitaev alias, an
    attribute of that name that is not callable is not invoked:
    [__call__] raises the parameter error straight after the lookup, the
    instance untouched and [get_fermionic_hamiltonian] not called. *)
Theorem call_noncallable_attribute_raises
    (cls : Class) (s s1 : Self D) (b : bool) (v : V) :
  verify cls s = (Ok b, s1) ->
  jordan_wigner (parameters s1) = false ->
  bravyi_kitaev (parameters s1) = false ->
  attributes cls s1 !! transformation (parameters s1) = Some (NotCallable v) ->
  __call__ cls s =
  Outcome
    (Err (OpenVQEParameterError
            (py "transformation")
            (parameters_type (parameters s1))
            (transformation (parameters s1))
            (__name__ (self_type s1) ++ py ".__call__()")))
    s1
    [EvVerify; EvGetattr (transformation (parameters s1))].
Proof.
  intros Hv Hjw Hbk Hf. apply (run_unknown _ _ _ _ Hv Hjw Hbk).
  rewrite Hf. reflexivity.
Qed.

End Properties.

(** ** The claims on concrete instances *)

Section Instances.

Import Example.

(** *** Runs of the example classes *)

(** The default configuration selects Jordan-Wigner. *)
Example default_is_jordan_wigner :
  jordan_wigner ParametersHamiltonian_default = true /\
  bravyi_kitaev ParametersHamiltonian_default = false.
Proof. split; reflexivity. Qed.

Example same_ignoring_ascii_case_variants :
  same_ignoring_ascii_case (py "Jordan-Wigner") (py "JORDAN-wigner") /\
  ~ same_ignoring_ascii_case (py "J-W") (py "JW").
Proof. split; [reflexivity | discriminate]. Qed.

(** Case and hyphenation variants reach the built-in transforms; the
    dotless i of the uppercase table is accepted too. *)
Example run_builtin_variants :
  value (__call__ Molecule (instance "Molecule" (py "Jordan-Wigner"))) = Ok 16 /\
  value (__call__ Molecule (instance "Molecule" (py "j-w"))) = Ok 16 /\
  value (__call__ Molecule (instance "Molecule" (py "Bk"))) = Ok 17 /\
  value (__call__ Molecule
           (instance "Molecule" (py "bravy" ++ [305] ++ py "-kitaev"))) = Ok 17.
Proof. repeat split. Qed.

(** A custom method is found under its exact name only. *)
Example run_custom_exact_name :
  value (__call__ Molecule (instance "Molecule" (py "custom_transform"))) =
  Ok 107 /\
  raised_class
    (value (__call__ Molecule (instance "Molecule" (py "CUSTOM_TRANSFORM")))) =
  Some ClsOpenVQEParameterError.
Proof. split; reflexivity. Qed.

(** What [verify] raises is what the call raises, whatever the name. *)
Example run_inconsistent :
  __call__ Inconsistent (instance "Inconsistent" (py "foo")) =
  Outcome (Err (Raised tt)) (instance "Inconsistent" (py "foo")) [EvVerify].
Proof. reflexivity. Qed.

Lemma Molecule_read_only : read_only Molecule.
Proof.
  repeat split.
  intros s name f h s' Hf. simpl in Hf.
  repeat (rewrite lookup_insert in Hf; case_decide;
          [injection Hf as <- || discriminate Hf; reflexivity |]).
  apply lookup_singleton_Some in Hf as [_ Hf]. discriminate Hf.
Qed.

(** *** Witnesses *)

Lemma call_delegates_to_openfermion_witness :
  verify Molecule (instance "Molecule" (py "JW")) =
  (Ok true, instance "Molecule" (py "JW")) /\
  get_fermionic_hamiltonian Molecule (instance "Molecule" (py "JW")) =
  (Ok 7, instance "Molecule" (py "JW")) /\
  value (__call__ Molecule (instance "Molecule" (py "JW"))) =
  and_then (openfermion.get_fermion_operator 7) openfermion.jordan_wigner /\
  value (__call__ Molecule (instance "Molecule" (py "b-k"))) =
  and_then (openfermion.get_fermion_operator 7) openfermion.bravyi_kitaev.
Proof.
  split; [reflexivity |]. split; [reflexivity |]. split.
  - apply (call_delegates_to_openfermion Molecule
             (instance "Molecule" (py "JW")) (instance "Molecule" (py "JW"))
             (instance "Molecule" (py "JW")) true 7 eq_refl eq_refl).
    reflexivity.
  - apply (call_delegates_to_openfermion Molecule
             (instance "Molecule" (py "b-k")) (instance "Molecule" (py "b-k"))
             (instance "Molecule" (py "b-k")) true 7 eq_refl eq_refl).
    reflexivity.
Defined.

Lemma call_unknown_transformation_raises_witness :
  jordan_wigner (parameters (instance "Molecule" (py "foo"))) = false /\
  bravyi_kitaev (parameters (instance "Molecule" (py "foo"))) = false /\
  callable (attributes Molecule (instance "Molecule" (py "foo")) !! py "foo") =
  false /\
  value (__call__ Molecule (instance "Molecule" (py "foo"))) =
  Err (OpenVQEParameterError (py "transformation") ParametersHamiltonian_type
         (py "foo") (py "Molecule.__call__()")).
Proof.
  split; [reflexivity |]. split; [reflexivity |]. split; [reflexivity |].
  apply (call_unknown_transformation_raises Molecule
           (instance "Molecule" (py "foo")) (instance "Molecule" (py "foo"))
           true eq_refl eq_refl eq_refl eq_refl).
Defined.

Lemma call_custom_transformation_witness :
  attributes Molecule (instance "Molecule" (py "custom_transform"))
    !! py "custom_transform" = Some (Callable custom_transform) /\
  value (__call__ Molecule (instance "Molecule" (py "custom_transform"))) =
  (custom_transform 7 (instance "Molecule" (py "custom_transform"))).1 /\
  final (__call__ Molecule (instance "Molecule" (py "custom_transform"))) =
  (custom_transform 7 (instance "Molecule" (py "custom_transform"))).2.
Proof.
  split; [reflexivity |].
  apply (call_custom_transformation Molecule
           (instance "Molecule" (py "custom_transform"))
           (instance "Molecule" (py "custom_transform"))
           (instance "Molecule" (py "custom_transform"))
           true custom_transform 7 eq_refl eq_refl eq_refl eq_refl eq_refl).
Defined.

(** [WithSetter] has a method that writes to the instance, so the class is
    not read-only; configured with ["JW"] the call does not reach it. *)
Example WithSetter_not_read_only : ~ read_only SetterExample.WithSetter.
Proof.
  intros (_ & _ & Hattr).
  specialize (Hattr (SetterExample.instance (py "JW")) (py "set_basis")
                SetterExample.set_basis 1 (SetterExample.instance (py "JW"))
                eq_refl).
  discriminate Hattr.
Qed.

Lemma consecutive_calls_equal_witness :
  unchanged_by_methods SetterExample.WithSetter
    (SetterExample.instance (py "JW")) /\
  final (__call__ SetterExample.WithSetter (SetterExample.instance (py "JW"))) =
  SetterExample.instance (py "JW") /\
  call_twice SetterExample.WithSetter (SetterExample.instance (py "JW")) =
  (Ok 16, Ok 16, SetterExample.instance (py "JW")) /\
  trace (__call__ SetterExample.WithSetter
           (final (__call__ SetterExample.WithSetter
                     (SetterExample.instance (py "JW"))))) =
  [EvVerify; EvGetFermionicHamiltonian; EvGetFermionOperator; EvJordanWigner].
Proof.
  assert (Hun : unchanged_by_methods SetterExample.WithSetter
                  (SetterExample.instance (py "JW"))).
  { split; [reflexivity |]. intros b _. split; [reflexivity |].
    intros f h Hjw. discriminate Hjw. }
  split; [exact Hun |].
  exact (consecutive_calls_equal SetterExample.WithSetter
           (SetterExample.instance (py "JW")) Hun).
Defined.

Lemma dispatch_name_matching_asymmetric_witness :
  same_ignoring_ascii_case (py "jOrDaN-wIgNeR") (py "JORDAN-WIGNER") /\
  __call__ Molecule (instance "Molecule" (py "jOrDaN-wIgNeR")) =
  Outcome (Ok 16) (instance "Molecule" (py "jOrDaN-wIgNeR"))
    [EvVerify; EvGetFermionicHamiltonian; EvGetFermionOperator; EvJordanWigner] /\
  same_ignoring_ascii_case (py "CUSTOM_TRANSFORM") (py "custom_transform") /\
  value (__call__ Molecule (instance "Molecule" (py "CUSTOM_TRANSFORM"))) =
  Err (OpenVQEParameterError (py "transformation") ParametersHamiltonian_type
         (py "CUSTOM_TRANSFORM") (py "Molecule.__call__()")).
Proof.
  destruct (dispatch_name_matching_asymmetric
              (FermionicHamiltonian := N) (FermionOperator := N)
              (QubitOperator := N) (D := unit) (E := unit) (V := N))
    as [Hbuiltin Hcustom].
  split; [reflexivity |]. split; [| split; [reflexivity |]].
  - apply (Hbuiltin Molecule
             (instance "Molecule" (py "jOrDaN-wIgNeR"))
             (instance "Molecule" (py "jOrDaN-wIgNeR"))
             (instance "Molecule" (py "jOrDaN-wIgNeR"))
             true 7 (py "JORDAN-WIGNER") eq_refl eq_refl eq_refl).
    right. right. reflexivity.
  - apply (Hcustom Molecule
             (instance "Molecule" (py "CUSTOM_TRANSFORM"))
             (instance "Molecule" (py "CUSTOM_TRANSFORM"))
             true (py "custom_transform") custom_transform _
             eq_refl eq_refl eq_refl eq_refl eq_refl).
    discriminate.
Defined.

Lemma call_noncallable_attribute_raises_witness :
  attributes Molecule (instance "Molecule" (py "basis")) !! py "basis" =
  Some (NotCallable 0) /\
  __call__ Molecule (instance "Molecule" (py "basis")) =
  Outcome
    (Err (OpenVQEParameterError (py "transformation") ParametersHamiltonian_type
            (py "basis") (py "Molecule.__call__()")))
    (instance "Molecule" (py "basis"))
    [EvVerify; EvGetattr (py "basis")].
Proof.
  split; [reflexivity |].
  apply (call_noncallable_attribute_raises Molecule
           (instance "Molecule" (py "basis")) (instance "Molecule" (py "basis"))
           true 0 eq_refl eq_refl eq_refl eq_refl).
Defined.

(** *** Counterexamples *)

(** C2 as stated fails: ["foo"] is no alias and no attribute of
    [Inconsistent], yet [__call__] raises what [verify] raised and not the
    parameter error. *)
Lemma inconsistent_instance_raises_no_parameter_error :
  jordan_wigner (parameters (instance "Inconsistent" (py "foo"))) = false /\
  bravyi_kitaev (parameters (instance "Inconsistent" (py "foo"))) = false /\
  callable (attributes Inconsistent (instance "Inconsistent" (py "foo"))
              !! py "foo") = false /\
  value (__call__ Inconsistent (instance "Inconsistent" (py "foo"))) =
  Err (Raised tt) /\
  raised_class (value (__call__ Inconsistent (instance "Inconsistent" (py "foo")))) <>
  Some ClsOpenVQEParameterError.
Proof. repeat (split; [reflexivity |]). discriminate. Qed.

(** C4 as stated fails: on the unmodified base [n_qubits()] raises
    [OpenVQEException], which is not the [NotImplementedError] that
    [get_fermionic_hamiltonian()] raises. *)
Lemma base_n_qubits_raises_another_class :
  raised_class (n_qubits Base (instance "HamiltonianBase" (py "JW"))).1 =
  Some ClsOpenVQEException /\
  raised_class
    (get_fermionic_hamiltonian Base (instance "HamiltonianBase" (py "JW"))).1 =
  Some ClsNotImplementedError /\
  raised_class (n_qubits Base (instance "HamiltonianBase" (py "JW"))).1 <>
  raised_class
    (get_fermionic_hamiltonian Base (instance "HamiltonianBase" (py "JW"))).1.
Proof. split; [reflexivity |]. split; [reflexivity |]. discriminate. Qed.

(** C5 as stated fails: [Molecule] defines a method under the name [jw];
    configured with ["jw"], [__call__] returns the Jordan-Wigner result
    (16) and not what the method returns for the Hamiltonian (107). *)
Lemma alias_named_method_is_not_called :
  attributes Molecule (instance "Molecule" (py "jw")) !! py "jw" =
  Some (Callable custom_transform) /\
  get_fermionic_hamiltonian Molecule (instance "Molecule" (py "jw")) =
  (Ok 7, instance "Molecule" (py "jw")) /\
  (custom_transform 7 (instance "Molecule" (py "jw"))).1 = Ok 107 /\
  value (__call__ Molecule (instance "Molecule" (py "jw"))) = Ok 16 /\
  value (__call__ Molecule (instance "Molecule" (py "jw"))) <>
  (custom_transform 7 (instance "Molecule" (py "jw"))).1.
Proof. repeat (split; [reflexivity |]). discriminate. Qed.

(** C6 as stated fails: on the unmodified base configured with ["foo"],
    [__call__] raises the parameter error without ever calling
    [get_fermionic_hamiltonian]; obtaining the Hamiltonian before the
    dispatch would have raised [NotImplementedError] instead. *)
Lemma hamiltonian_not_obtained_before_dispatch :
  trace (__call__ Base (instance "HamiltonianBase" (py "foo"))) =
  [EvVerify; EvGetattr (py "foo")] /\
  (EvGetFermionicHamiltonian ∉
     trace (__call__ Base (instance "HamiltonianBase" (py "foo")))) /\
  raised_class (value (__call__ Base (instance "HamiltonianBase" (py "foo")))) =
  Some ClsOpenVQEParameterError /\
  raised_class
    (value (call_in_spec_order Base (instance "HamiltonianBase" (py "foo")))) =
  Some ClsNotImplementedError.
Proof.
  split; [reflexivity |]. split; [| split; reflexivity].
  intros Hin. simpl in Hin. rewrite !elem_of_cons, elem_of_nil in Hin.
  destruct Hin as [Heq | [Heq | []]]; discriminate Heq.
Qed.

(** C10 as stated fails: [Molecule] has a non-callable attribute under the
    name [bk]; configured with ["bk"], [__call__] raises nothing and
    returns the Bravyi-Kitaev result. *)
Lemma alias_named_attribute_raises_nothing :
  attributes Molecule (instance "Molecule" (py "bk")) !! py "bk" =
  Some (NotCallable 1) /\
  value (__call__ Molecule (instance "Molecule" (py "bk"))) = Ok 17 /\
  raised_class (value (__call__ Molecule (instance "Molecule" (py "bk")))) =
  None.
Proof. repeat split. Qed.

End Instances.

(** ** More of the module's behaviour *)

(** *** What a run looks like *)

(** The operations a trace is counted by. *)
Definition is_verify (ev : event) : bool :=
  match ev with EvVerify => true | _ => false end.

Definition is_accessor (ev : event) : bool :=
  match ev with EvGetFermionicHamiltonian => true | _ => false end.

Definition is_lookup (ev : event) : bool :=
  match ev with EvGetattr _ => true | _ => false end.

Definition is_conversion (ev : event) : bool :=
  match ev with EvGetFermionOperator => true | _ => false end.

Definition is_transform (ev : event) : bool :=
  match ev with
  | EvJordanWigner | EvBravyiKitaev | EvTransformMethod _ => true
  | _ => false
  end.

Definition occurrences (P : event -> bool) (tr : list event) : nat :=
  length (List.filter P tr).

(** [str.upper] on an ASCII character. *)
Definition ascii_upper (c : N) : N :=
  if (97 <=? c) && (c <=? 122) then c - 32 else c.

Definition is_ascii (t : str) : Prop := Forall (fun c => c < 128) t.

Section Runs.

Context {FermionicHamiltonian FermionOperator QubitOperator : Type}.
Context {D E V : Type}.
Context `{Unicode}.
Context `{!openfermion.API FermionicHamiltonian FermionOperator QubitOperator E}.

Local Abbreviation Class :=
  (HamiltonianClass FermionicHamiltonian QubitOperator D E V).

(** The class [cls] with other attributes on its instances. *)
Definition with_attributes (cls : Class)
    (attrs : Self D -> gmap str (attr FermionicHamiltonian QubitOperator D E V)) :
  Class :=
  {| verify := verify cls;
     get_fermionic_hamiltonian := get_fermionic_hamiltonian cls;
     n_qubits := n_qubits cls;
     attributes := attrs |}.

(** The seven ways through [__call__], as a relation between the instance
    before and the outcome. *)
Inductive Run (cls : Class) (s : Self D) : outcome D E QubitOperator -> Prop :=
| RunVerifyRaises e s1 :
    verify cls s = (Err e, s1) ->
    Run cls s (Outcome (Err e) s1 [EvVerify])
| RunBuiltinAccessorRaises b s1 e s2 :
    verify cls s = (Ok b, s1) ->
    jordan_wigner (parameters s1) || bravyi_kitaev (parameters s1) = true ->
    get_fermionic_hamiltonian cls s1 = (Err e, s2) ->
    Run cls s (Outcome (Err e) s2 [EvVerify; EvGetFermionicHamiltonian])
| RunJordanWigner b s1 h s2 :
    verify cls s = (Ok b, s1) ->
    jordan_wigner (parameters s1) = true ->
    get_fermionic_hamiltonian cls s1 = (Ok h, s2) ->
    Run cls s
      (Outcome
         (and_then (openfermion.get_fermion_operator h) openfermion.jordan_wigner)
         s2
         (EvVerify :: EvGetFermionicHamiltonian :: EvGetFermionOperator ::
            match openfermion.get_fermion_operator h with
            | Ok _ => [EvJordanWigner]
            | Err _ => []
            end))
| RunBravyiKitaev b s1 h s2 :
    verify cls s = (Ok b, s1) ->
    jordan_wigner (parameters s1) = false ->
    bravyi_kitaev (parameters s1) = true ->
    get_fermionic_hamiltonian cls s1 = (Ok h, s2) ->
    Run cls s
      (Outcome
         (and_then (openfermion.get_fermion_operator h) openfermion.bravyi_kitaev)
         s2
         (EvVerify :: EvGetFermionicHamiltonian :: EvGetFermionOperator ::
            match openfermion.get_fermion_operator h with
            | Ok _ => [EvBravyiKitaev]
            | Err _ => []
            end))
| RunCustomAccessorRaises b s1 f e s2 :
    verify cls s = (Ok b, s1) ->
    jordan_wigner (parameters s1) = false ->
    bravyi_kitaev (parameters s1) = false ->
    attributes cls s1 !! transformation (parameters s1) = Some (Callable f) ->
    get_fermionic_hamiltonian cls s1 = (Err e, s2) ->
    Run cls s
      (Outcome (Err e) s2
         [EvVerify; EvGetattr (transformation (parameters s1));
          EvGetFermionicHamiltonian])
| RunCustom b s1 f h s2 :
    verify cls s = (Ok b, s1) ->
    jordan_wigner (parameters s1) = false ->
    bravyi_kitaev (parameters s1) = false ->
    attributes cls s1 !! transformation (parameters s1) = Some (Callable f) ->
    get_fermionic_hamiltonian cls s1 = (Ok h, s2) ->
    Run cls s
      (Outcome (f h s2).1 (f h s2).2
         [EvVerify; EvGetattr (transformation (parameters s1));
          EvGetFermionicHamiltonian;
          EvTransformMethod (transformation (parameters s1))])
| RunUnknown b s1 :
    verify cls s = (Ok b, s1) ->
    jordan_wigner (parameters s1) = false ->
    bravyi_kitaev (parameters s1) = false ->
    callable (attributes cls s1 !! transformation (parameters s1)) = false ->
    Run cls s
      (Outcome
         (Err (OpenVQEParameterError
                 (py "transformation")
                 (parameters_type (parameters s1))
                 (transformation (parameters s1))
                 (__name__ (self_type s1) ++ py ".__call__()")))
         s1
         [EvVerify; EvGetattr (transformation (parameters s1))]).

(** [__call__] always takes one of them. *)
Lemma call_Run (cls : Class) (s : Self D) : Run cls s (__call__ cls s).
Proof.
  destruct (verify cls s) as [[b | e] s1] eqn:Hv.
  2: { rewrite (run_verify_raises _ _ _ _ Hv). econstructor; eassumption. }
  destruct (get_fermionic_hamiltonian cls s1) as [[h | e] s2] eqn:Hh.
  - destruct (jordan_wigner (parameters s1)) eqn:Hjw.
    { rewrite (run_jordan_wigner _ _ _ _ _ _ Hv Hjw Hh).
      eapply RunJordanWigner; eassumption. }
    destruct (bravyi_kitaev (parameters s1)) eqn:Hbk.
    { rewrite (run_bravyi_kitaev _ _ _ _ _ _ Hv Hbk Hh).
      eapply RunBravyiKitaev; eassumption. }
    destruct (callable (attributes cls s1 !! transformation (parameters s1)))
      eqn:Hc.
    + destruct (attributes cls s1 !! transformation (parameters s1))
        as [[f | v] |] eqn:Hf; try discriminate Hc.
      rewrite (run_custom _ _ _ _ _ _ _ Hv Hjw Hbk Hf Hh).
      eapply RunCustom; eassumption.
    + rewrite (run_unknown _ _ _ _ Hv Hjw Hbk Hc).
      eapply RunUnknown; eassumption.
  - destruct (jordan_wigner (parameters s1) || bravyi_kitaev (parameters s1))
      eqn:Hb.
    { rewrite (run_builtin_raises _ _ _ _ _ _ Hv Hb Hh).
      eapply RunBuiltinAccessorRaises; eassumption. }
    apply orb_false_elim in Hb as [Hjw Hbk].
    destruct (callable (attributes cls s1 !! transformation (parameters s1)))
      eqn:Hc.
    + destruct (attributes cls s1 !! transformation (parameters s1))
        as [[f | v] |] eqn:Hf; try discriminate Hc.
      rewrite (run_custom_raises _ _ _ _ _ _ _ Hv Hjw Hbk Hf Hh).
      eapply RunCustomAccessorRaises; eassumption.
    + rewrite (run_unknown _ _ _ _ Hv Hjw Hbk Hc).
      eapply RunUnknown; eassumption.
Qed.

End Runs.

Section Behaviour.

Context {FermionicHamiltonian FermionOperator QubitOperator : Type}.
Context {D E V : Type}.
Context `{Unicode}.
Context `{!openfermion.API FermionicHamiltonian FermionOperator QubitOperator E}.

Local Abbreviation Class :=
  (HamiltonianClass FermionicHamiltonian QubitOperator D E V).

(** An event that is none of a given trace's. *)
Ltac absent Hin :=
  repeat (apply elem_of_cons in Hin as [Hin | Hin]; [discriminate Hin |]);
  apply elem_of_nil in Hin; exact Hin.

(** *** ASCII names *)

Lemma upper_is_ascii (t : str) : is_ascii t -> upper t = ascii_upper <$> t.
Proof.
  unfold upper. induction 1 as [| c t Hc _ IH]; [reflexivity |].
  rewrite bind_cons, fmap_cons, IH. unfold upper_char, ascii_upper.
  destruct (N.ltb_spec c 128); [reflexivity | lia].
Qed.

Lemma ascii_lower_upper (c : N) : ascii_lower (ascii_upper c) = ascii_lower c.
Proof.
  unfold ascii_lower, ascii_upper.
  destruct (N.leb_spec 97 c), (N.leb_spec c 122); simpl; try reflexivity.
  destruct (N.leb_spec 65 (c - 32)), (N.leb_spec (c - 32) 90); try lia.
  destruct (N.leb_spec 65 c), (N.leb_spec c 90); try lia.
  simpl. lia.
Qed.

Lemma upper_eq_same_case (t x : str) :
  is_ascii t -> upper x = x ->
  upper t = x <-> same_ignoring_ascii_case t x.
Proof.
  intros Ht Hx. split.
  - intros Hup. unfold same_ignoring_ascii_case.
    rewrite <- Hup, (upper_is_ascii t Ht), <- list_fmap_compose.
    apply list_fmap_ext. intros _ c _. simpl. symmetry. apply ascii_lower_upper.
  - intros Hsame. rewrite (upper_ignores_ascii_case _ _ Hsame). exact Hx.
Qed.

(** X1.  For a name of ASCII characters, each predicate is true exactly for
    the spellings of its three aliases in any mix of upper and lower case;
    nothing is trimmed and no other separator is accepted. *)
Theorem ascii_names_accepted (p : ParametersHamiltonian) :
  is_ascii (transformation p) ->
  (jordan_wigner p = true <->
   same_ignoring_ascii_case (transformation p) (py "JW") \/
   same_ignoring_ascii_case (transformation p) (py "J-W") \/
   same_ignoring_ascii_case (transformation p) (py "JORDAN-WIGNER")) /\
  (bravyi_kitaev p = true <->
   same_ignoring_ascii_case (transformation p) (py "BK") \/
   same_ignoring_ascii_case (transformation p) (py "B-K") \/
   same_ignoring_ascii_case (transformation p) (py "BRAVYI-KITAEV")).
Proof.
  intros Ht. split.
  - rewrite jordan_wigner_true. unfold jordan_wigner_aliases.
    rewrite !elem_of_cons, elem_of_nil.
    rewrite !(upper_eq_same_case _ _ Ht) by reflexivity. tauto.
  - rewrite bravyi_kitaev_true. unfold bravyi_kitaev_aliases.
    rewrite !elem_of_cons, elem_of_nil.
    rewrite !(upper_eq_same_case _ _ Ht) by reflexivity. tauto.
Qed.

(** *** The value [verify] returns *)

(** X2.  [__call__] does not look at what [verify] returns: two classes that
    differ only in the boolean their [verify] returns (both return, and
    leave the instance in the same state) give the same outcome, so a
    [verify] that returns [False] stops nothing. *)
Theorem verify_result_is_ignored
    (cls cls' : Class) (s s1 : Self D) (b b' : bool) :
  verify cls s = (Ok b, s1) ->
  verify cls' s = (Ok b', s1) ->
  get_fermionic_hamiltonian cls' = get_fermionic_hamiltonian cls ->
  attributes cls' = attributes cls ->
  __call__ cls' s = __call__ cls s.
Proof.
  intros Hv Hv' Hget Hattr.
  unfold __call__, bind, call, read, getattr. simpl.
  rewrite Hv, Hv', Hget, Hattr. reflexivity.
Qed.

(** *** Failures on the way *)

(** X3.  When [get_fermionic_hamiltonian] raises in a branch that needs the
    Hamiltonian, [__call__] raises the same exception, the accessor is the
    last thing it did (no conversion, no transform, no custom method), and
    the instance stays as the accessor left it. *)
Theorem accessor_failure_ends_call
    (cls : Class) (s s1 s2 : Self D) (b : bool) (e : exn E) :
  verify cls s = (Ok b, s1) ->
  jordan_wigner (parameters s1) || bravyi_kitaev (parameters s1)
  || callable (attributes cls s1 !! transformation (parameters s1)) = true ->
  get_fermionic_hamiltonian cls s1 = (Err e, s2) ->
  value (__call__ cls s) = Err e /\
  final (__call__ cls s) = s2 /\
  (exists before,
      trace (__call__ cls s) = before ++ [EvGetFermionicHamiltonian]) /\
  occurrences is_conversion (trace (__call__ cls s)) = 0%nat /\
  occurrences is_transform (trace (__call__ cls s)) = 0%nat.
Proof.
  intros Hv Hsel Hh.
  destruct (jordan_wigner (parameters s1) || bravyi_kitaev (parameters s1))
    eqn:Hb.
  - rewrite (run_builtin_raises _ _ _ _ _ _ Hv Hb Hh). simpl.
    repeat split; try reflexivity. exists [EvVerify]. reflexivity.
  - simpl in Hsel. apply orb_false_elim in Hb as [Hjw Hbk].
    destruct (attributes cls s1 !! transformation (parameters s1))
      as [[f | v] |] eqn:Hf; try discriminate Hsel.
    rewrite (run_custom_raises _ _ _ _ _ _ _ Hv Hjw Hbk Hf Hh). simpl.
    repeat split; try reflexivity.
    exists [EvVerify; EvGetattr (transformation (parameters s1))]. reflexivity.
Qed.

(** X4.  When openfermion's [get_fermion_operator] raises on the Hamiltonian,
    [__call__] raises the same exception without calling [jordan_wigner]
    or [bravyi_kitaev], and what [get_fermionic_hamiltonian] did to the
    instance stays. *)
Theorem conversion_failure_skips_transform
    (cls : Class) (s s1 s2 : Self D) (b : bool)
    (h : FermionicHamiltonian) (e : exn E) :
  verify cls s = (Ok b, s1) ->
  jordan_wigner (parameters s1) || bravyi_kitaev (parameters s1) = true ->
  get_fermionic_hamiltonian cls s1 = (Ok h, s2) ->
  openfermion.get_fermion_operator h = Err e ->
  __call__ cls s =
  Outcome (Err e) s2
    [EvVerify; EvGetFermionicHamiltonian; EvGetFermionOperator].
Proof.
  intros Hv Hb Hh Hfo.
  destruct (jordan_wigner (parameters s1)) eqn:Hjw.
  - rewrite (run_jordan_wigner _ _ _ _ _ _ Hv Hjw Hh), Hfo. reflexivity.
  - simpl in Hb.
    rewrite (run_bravyi_kitaev _ _ _ _ _ _ Hv Hb Hh), Hfo. reflexivity.
Qed.

(** *** What a call does, and how often *)

(** X5.  A call runs [verify] exactly once, and at most once each:
    [get_fermionic_hamiltonian], the attribute lookup, openfermion's
    conversion, and a transform (Jordan-Wigner, Bravyi-Kitaev or a custom
    method; never two of them). *)
Theorem call_runs_each_step_at_most_once (cls : Class) (s : Self D) :
  occurrences is_verify (trace (__call__ cls s)) = 1%nat /\
  (occurrences is_accessor (trace (__call__ cls s)) <= 1)%nat /\
  (occurrences is_lookup (trace (__call__ cls s)) <= 1)%nat /\
  (occurrences is_conversion (trace (__call__ cls s)) <= 1)%nat /\
  (occurrences is_transform (trace (__call__ cls s)) <= 1)%nat.
Proof.
  destruct (call_Run cls s); simpl;
    try destruct (openfermion.get_fermion_operator h);
    cbv [occurrences List.filter is_verify is_accessor is_lookup
           is_conversion is_transform length];
    repeat split; lia.
Qed.

(** X6.  A built-in alias never reaches the attributes: with a Jordan-Wigner
    or Bravyi-Kitaev alias configured, no attribute is looked up or invoked,
    and the outcome is the same whatever attributes the instance has. *)
Theorem builtin_alias_ignores_attributes
    (cls : Class)
    (attrs : Self D -> gmap str (attr FermionicHamiltonian QubitOperator D E V))
    (s s1 : Self D) (b : bool) :
  verify cls s = (Ok b, s1) ->
  jordan_wigner (parameters s1) || bravyi_kitaev (parameters s1) = true ->
  __call__ (with_attributes cls attrs) s = __call__ cls s /\
  occurrences is_lookup (trace (__call__ cls s)) = 0%nat /\
  (forall name, EvTransformMethod name ∉ trace (__call__ cls s)).
Proof.
  intros Hv Hb.
  assert (Hsame : __call__ (with_attributes cls attrs) s = __call__ cls s).
  { unfold __call__, bind, call, read, getattr. simpl. rewrite Hv. simpl.
    destruct (jordan_wigner (parameters s1)); [reflexivity |].
    simpl in Hb. rewrite Hb. reflexivity. }
  split; [exact Hsame |].
  destruct (call_Run cls s) as
    [e s1' Hv' | b' s1' e s2 Hv' _ _ | b' s1' h s2 Hv' _ _
    | b' s1' h s2 Hv' _ _ _ | b' s1' f e s2 Hv' Hjw Hbk _ _
    | b' s1' f h s2 Hv' Hjw Hbk _ _ | b' s1' Hv' Hjw Hbk _];
    rewrite Hv in Hv'; simplify_eq; simpl;
    try (rewrite Hjw, Hbk in Hb; discriminate Hb).
  - split; [reflexivity |]. intros name Hin. absent Hin.
  - split; [destruct (openfermion.get_fermion_operator h); reflexivity |].
    intros name Hin. destruct (openfermion.get_fermion_operator h); absent Hin.
  - split; [destruct (openfermion.get_fermion_operator h); reflexivity |].
    intros name Hin. destruct (openfermion.get_fermion_operator h); absent Hin.
Qed.

(** X7.  The converse of the unknown-name error.  [__call__] stops right
    after the attribute lookup only when [verify] has returned, the
    configured name is neither a Jordan-Wigner nor a Bravyi-Kitaev alias
    and no callable attribute has that name; it then raises its parameter
    error for that name. *)
Theorem lookup_ends_call_only_for_unknown_names
    (cls : Class) (s : Self D) (name : str) :
  trace (__call__ cls s) = [EvVerify; EvGetattr name] <->
  exists b s1,
    verify cls s = (Ok b, s1) /\
    name = transformation (parameters s1) /\
    jordan_wigner (parameters s1) = false /\
    bravyi_kitaev (parameters s1) = false /\
    callable (attributes cls s1 !! name) = false /\
    value (__call__ cls s) =
    Err (OpenVQEParameterError
           (py "transformation") (parameters_type (parameters s1)) name
           (__name__ (self_type s1) ++ py ".__call__()")).
Proof.
  split.
  - destruct (call_Run cls s) as
      [e s1 Hv | b s1 e s2 Hv _ _ | b s1 h s2 Hv _ _
      | b s1 h s2 Hv _ _ _ | b s1 f e s2 Hv Hjw Hbk _ _
      | b s1 f h s2 Hv Hjw Hbk _ _ | b s1 Hv Hjw Hbk Hc];
      simpl; intros Htr; try discriminate Htr.
    injection Htr as <-. exists b, s1. auto 10.
  - intros (b & s1 & Hv & -> & Hjw & Hbk & Hc & _).
    rewrite (run_unknown _ _ _ _ Hv Hjw Hbk Hc). reflexivity.
Qed.

(** *** The unmodified base class *)

(** X8.  Calling an instance of [HamiltonianBase] itself never returns a
    qubit operator.  Once [_verify] has returned, a name that selects a
    transform (a built-in alias or a callable attribute) runs into the
    [NotImplementedError] of [get_fermionic_hamiltonian] before any
    transform is tried, and any other name raises the parameter error; the
    instance stays as [_verify] left it. *)
Theorem base_call_always_raises
    (_verify : method D E bool)
    (attrs : Self D -> gmap str (attr FermionicHamiltonian QubitOperator D E V))
    (s : Self D) :
  (forall q, value (__call__ (HamiltonianBase _verify attrs) s) <> Ok q) /\
  occurrences is_transform (trace (__call__ (HamiltonianBase _verify attrs) s)) =
  0%nat /\
  (forall b s1,
      _verify s = (Ok b, s1) ->
      final (__call__ (HamiltonianBase _verify attrs) s) = s1 /\
      value (__call__ (HamiltonianBase _verify attrs) s) =
      if jordan_wigner (parameters s1) || bravyi_kitaev (parameters s1)
         || callable (attrs s1 !! transformation (parameters s1))
      then
        Err (NotImplementedError
               (py "You try to call get_hamiltonian from the HamiltonianBase class. This function needs to be overwritten by subclasses"))
      else
        Err (OpenVQEParameterError
               (py "transformation") (parameters_type (parameters s1))
               (transformation (parameters s1))
               (__name__ (self_type s1) ++ py ".__call__()"))).
Proof.
  destruct (call_Run (HamiltonianBase _verify attrs) s) as
    [e s1 Hv | b s1 e s2 Hv Hb Hh | b s1 h s2 Hv _ Hh
    | b s1 h s2 Hv _ _ Hh | b s1 f e s2 Hv Hjw Hbk Hf Hh
    | b s1 f h s2 Hv Hjw Hbk _ Hh | b s1 Hv Hjw Hbk Hc];
    simpl in Hv; unfold HamiltonianBase_verify in Hv;
    try (simpl in Hh; unfold HamiltonianBase_get_fermionic_hamiltonian in Hh;
         simplify_eq);
    simpl.
  - split; [discriminate |]. split; [reflexivity |].
    intros b s1' Hv'. congruence.
  - split; [discriminate |]. split; [reflexivity |].
    intros b' s1' Hv'. rewrite Hv in Hv'. simplify_eq.
    rewrite Hb. split; reflexivity.
  - split; [discriminate |]. split; [reflexivity |].
    intros b' s1' Hv'. rewrite Hv in Hv'. simplify_eq.
    simpl in Hf. rewrite Hjw, Hbk, Hf. split; reflexivity.
  - split; [discriminate |]. split; [reflexivity |].
    intros b' s1' Hv'. rewrite Hv in Hv'. simplify_eq.
    simpl in Hc. rewrite Hjw, Hbk, Hc. split; reflexivity.
Qed.

End Behaviour.

(** *** On concrete instances *)

Module MoreExamples.

(** [Molecule] with a [verify] that returns [False] instead of raising. *)
Definition Unchecked : HamiltonianClass N N unit unit N :=
  {| verify := fun self => (Ok false, self);
     get_fermionic_hamiltonian := get_fermionic_hamiltonian Example.Molecule;
     n_qubits := n_qubits Example.Molecule;
     attributes := attributes Example.Molecule |}.

End MoreExamples.

(** An openfermion whose [get_fermion_operator] rejects the Hamiltonian
    that [Molecule] provides. *)
Module RejectingLibrary.

#[export] Instance unicode : Unicode := Example.unicode.

#[export] Instance api : openfermion.API N N N unit :=
  {| openfermion.get_fermion_operator h :=
       if h =? 7 then Err (Raised tt) else Ok (h + 1);
     openfermion.jordan_wigner fo := Ok (2 * fo);
     openfermion.bravyi_kitaev fo := Ok (2 * fo + 1) |}.

End RejectingLibrary.

Section MoreInstances.

Import Example MoreExamples.

Example run_rejected_spellings :
  jordan_wigner (parameters (instance "Molecule" (py " JW"))) = false /\
  jordan_wigner (parameters (instance "Molecule" (py "jordan_wigner"))) = false /\
  jordan_wigner (parameters (instance "Molecule" (py "JordanWigner"))) = false /\
  bravyi_kitaev (parameters (instance "Molecule" (py "B_K"))) = false.
Proof. repeat split. Qed.

Lemma ascii_names_accepted_witness :
  is_ascii (py "Jordan-Wigner") /\
  (jordan_wigner (parameters (instance "Molecule" (py "Jordan-Wigner"))) = true <->
   same_ignoring_ascii_case (py "Jordan-Wigner") (py "JW") \/
   same_ignoring_ascii_case (py "Jordan-Wigner") (py "J-W") \/
   same_ignoring_ascii_case (py "Jordan-Wigner") (py "JORDAN-WIGNER")).
Proof.
  assert (Hascii : is_ascii (py "Jordan-Wigner")) by (repeat constructor).
  split; [exact Hascii |].
  exact (proj1 (ascii_names_accepted
                  (parameters (instance "Molecule" (py "Jordan-Wigner")))
                  Hascii)).
Defined.

Lemma verify_result_is_ignored_witness :
  verify Unchecked (instance "Molecule" (py "custom_transform")) =
  (Ok false, instance "Molecule" (py "custom_transform")) /\
  __call__ Unchecked (instance "Molecule" (py "custom_transform")) =
  __call__ Molecule (instance "Molecule" (py "custom_transform")) /\
  value (__call__ Unchecked (instance "Molecule" (py "custom_transform"))) =
  Ok 107.
Proof.
  split; [reflexivity |]. split; [| reflexivity].
  exact (verify_result_is_ignored Molecule Unchecked
           (instance "Molecule" (py "custom_transform"))
           (instance "Molecule" (py "custom_transform"))
           true false eq_refl eq_refl eq_refl eq_refl).
Defined.

Lemma accessor_failure_ends_call_witness :
  get_fermionic_hamiltonian Base (instance "HamiltonianBase" (py "JW")) =
  (Err (NotImplementedError
          (py "You try to call get_hamiltonian from the HamiltonianBase class. This function needs to be overwritten by subclasses")),
   instance "HamiltonianBase" (py "JW")) /\
  trace (__call__ Base (instance "HamiltonianBase" (py "JW"))) =
  [EvVerify; EvGetFermionicHamiltonian] /\
  occurrences is_transform
    (trace (__call__ Base (instance "HamiltonianBase" (py "JW")))) = 0%nat.
Proof.
  split; [reflexivity |]. split; [reflexivity |].
  exact (proj2 (proj2 (proj2 (proj2
    (accessor_failure_ends_call Base
       (instance "HamiltonianBase" (py "JW"))
       (instance "HamiltonianBase" (py "JW"))
       (instance "HamiltonianBase" (py "JW"))
       true _ eq_refl eq_refl eq_refl))))).
Defined.

Lemma builtin_alias_ignores_attributes_witness :
  __call__ (with_attributes Molecule (fun _ => ∅)) (instance "Molecule" (py "jw")) =
  __call__ Molecule (instance "Molecule" (py "jw")) /\
  occurrences is_lookup (trace (__call__ Molecule (instance "Molecule" (py "jw")))) =
  0%nat.
Proof.
  destruct (builtin_alias_ignores_attributes Molecule (fun _ => ∅)
              (instance "Molecule" (py "jw")) (instance "Molecule" (py "jw"))
              true eq_refl eq_refl) as (Hsame & Hlookup & _).
  exact (conj Hsame Hlookup).
Defined.

End MoreInstances.

Section RejectingInstances.

Import RejectingLibrary.

Lemma conversion_failure_skips_transform_witness :
  openfermion.get_fermion_operator 7 = Err (Raised tt) /\
  __call__ Example.Molecule (Example.instance "Molecule" (py "bk")) =
  Outcome (Err (Raised tt)) (Example.instance "Molecule" (py "bk"))
    [EvVerify; EvGetFermionicHamiltonian; EvGetFermionOperator].
Proof.
  split; [reflexivity |].
  exact (conversion_failure_skips_transform Example.Molecule
           (Example.instance "Molecule" (py "bk"))
           (Example.instance "Molecule" (py "bk"))
           (Example.instance "Molecule" (py "bk"))
           true 7 (Raised tt) eq_refl eq_refl eq_refl eq_refl).
Defined.

End RejectingInstances.
